(** * Digital-Capture-Card: the Windows sender (src/sender/sender.cpp)

    The sender probes FFmpeg for the NVENC encoder, builds one FFmpeg
    command line, starts it with CreateProcessA and waits for it.

    The program is embedded shallowly.  std::string is [string]; a C
    string or character array is a [string] read up to its first NUL
    ([c_str]).
    Calls into the C runtime and Win32 are answered by an explicit
    record [OS]; every call that is visible from outside the process
    (console output, _popen/_pclose, CreateProcessA, WaitForSingleObject,
    CloseHandle) is logged as an [event].  C++ exceptions and a wait that
    never returns are outcomes of a computation. *)

From Stdlib Require Import String Ascii List Bool Arith NArith ZArith Lia.
From Stdlib Require Import DecimalString.
From Equations Require Import Equations.
Import ListNotations.

Set Implicit Arguments.
Local Open Scope string_scope.

(* ===================================================================== *)
(** ** Text *)
(* ===================================================================== *)

Definition NUL : ascii := Ascii.zero.
Definition LF : ascii := ascii_of_nat 10.
Definition TAB : ascii := ascii_of_nat 9.
Definition SP : ascii := " "%char.

(** ["\n"] inside a literal, and what [std::endl] writes. *)
Definition nl : string := String LF EmptyString.
Definition endl : string := nl.

(** The std::string made from a C string (assignment and [+=] from a
    character pointer): the characters before the first NUL. *)
Fixpoint c_str (p : string) : string :=
  match p with
  | EmptyString => EmptyString
  | String c p' => if Ascii.eqb c NUL then EmptyString else String c (c_str p')
  end.

(** [s.find(needle)]: position of the first occurrence, [None] for
    [std::string::npos]. *)
Fixpoint find (s needle : string) : option nat :=
  if prefix needle s then Some 0
  else match s with
       | EmptyString => None
       | String _ s' => option_map S (find s' needle)
       end.

(** [os << n] for an [int] and for an unsigned [DWORD]: decimal digits. *)
Definition dec_of_int (n : Z) : string := NilZero.string_of_int (Z.to_int n).
Definition dec_of_DWORD (n : N) : string := NilZero.string_of_uint (N.to_uint n).

(* ===================================================================== *)
(** ** Configuration (sender.cpp lines 10-12) *)
(* ===================================================================== *)

Definition DEFAULT_TARGET_IP : string := "192.168.1.100".
Definition TARGET_PORT : Z := 5555.
Definition FRAME_RATE : Z := 60.

(* ===================================================================== *)
(** ** The environment and what the program does to it *)
(* ===================================================================== *)

Definition HANDLE := N.
Definition DWORD := N.

Record PROCESS_INFORMATION := {
  hProcess : HANDLE;
  hThread : HANDLE
}.

(** An open [FILE*] on a pipe: its identity and the characters the child
    has still to deliver before end of stream. *)
Record FILE := {
  fileno : N;
  unread : string
}.

Inductive exn :=
| runtime_error (msg : string)
| bad_alloc.

(** The answers of the C runtime and of Win32.
    - [popen_pipe cmd]: [None] when [_popen] returns NULL, otherwise the
      pipe, carrying everything the command writes to its standard output;
    - [heap_limit]: the longest std::string the allocator grants
      ([None]: no limit); growing past it throws std::bad_alloc;
    - [bad_alloc_what]: the runtime's text for [std::bad_alloc::what()];
    - [create_process cmdline]: [inl code] when CreateProcessA returns
      FALSE, [code] being what GetLastError then reports, otherwise the
      handles written to the PROCESS_INFORMATION;
    - [child_exit h]: the exit code with which the process behind [h]
      terminates, [None] if it never does. *)
Record OS := {
  popen_pipe : string -> option FILE;
  heap_limit : option nat;
  bad_alloc_what : string;
  create_process : string -> DWORD + PROCESS_INFORMATION;
  child_exit : HANDLE -> option DWORD
}.

Definition what (os : OS) (e : exn) : string :=
  match e with
  | runtime_error msg => msg
  | bad_alloc => bad_alloc_what os
  end.

Inductive event :=
| EvCout (text : string)
| EvCerr (text : string)
| EvPopen (cmd mode : string) (pipe : option N)
| EvPclose (pipe : N)
| EvCreateProcess (cmdline : string) (res : DWORD + PROCESS_INFORMATION)
| EvWait (h : HANDLE)
| EvCloseHandle (h : HANDLE).

Definition trace := list event.

Inductive outcome (A : Type) :=
| Ret (a : A)        (* normal return *)
| Throw (e : exn)    (* a C++ exception leaves the call *)
| Blocked.           (* the call never returns *)
Arguments Throw {A} e.
Arguments Blocked {A}.

(** A computation: what it logged, in order, and how it ended. *)
Definition M (A : Type) : Type := (trace * outcome A)%type.

Definition ret {A} (a : A) : M A := ([], Ret a).

Definition bind {A B} (m : M A) (k : A -> M B) : M B :=
  match m with
  | (t, Ret a) => let (t', r) := k a in ((t ++ t')%list, r)
  | (t, Throw e) => (t, Throw e)
  | (t, Blocked) => (t, Blocked)
  end.

Definition throw {A} (e : exn) : M A := ([], Throw e).

(** [try { m } catch (...) { h }]; every exception of [exn] derives from
    std::exception, so [catch (const std::exception&)] is the same. *)
Definition try_catch {A} (m : M A) (h : exn -> M A) : M A :=
  match m with
  | (t, Throw e) => let (t', r) := h e in ((t ++ t')%list, r)
  | other => other
  end.

Definition emit (ev : event) : M unit := ([ev], Ret tt).

Definition events {A} (m : M A) : trace := fst m.
Definition result {A} (m : M A) : outcome A := snd m.

Declare Scope prog_scope.
Delimit Scope prog_scope with prog.
Notation "x <- m ;; k" := (bind m (fun x => k))
  (at level 61, m at next level, right associativity) : prog_scope.
Notation "m ;; k" := (bind m (fun _ => k))
  (at level 61, right associativity) : prog_scope.
Local Open Scope prog_scope.

Definition cout (text : string) : M unit := emit (EvCout text).
Definition cerr (text : string) : M unit := emit (EvCerr text).

Definition _popen (os : OS) (cmd mode : string) : M (option FILE) :=
  let pipe := popen_pipe os cmd in
  emit (EvPopen cmd mode (option_map fileno pipe)) ;; ret pipe.

Definition _pclose (pipe : FILE) : M unit := emit (EvPclose (fileno pipe)).

(** [fgets(buffer, n, pipe)] stores at most [n - 1] characters and stops
    after a newline.  [fgets_chars room pipe] is (stored, still unread). *)
Fixpoint fgets_chars (room : nat) (pipe : string) : string * string :=
  match room, pipe with
  | S room', String c rest =>
      if Ascii.eqb c LF then (String c EmptyString, rest)
      else let (buf, rest') := fgets_chars room' rest in (String c buf, rest')
  | _, _ => (EmptyString, pipe)
  end.

(** [None] is the NULL returned at end of stream. *)
Definition fgets (n : nat) (pipe : string) : option (string * string) :=
  match pipe with
  | EmptyString => None
  | _ => Some (fgets_chars (n - 1) pipe)
  end.

(** [result += buffer] *)
Definition string_append (heap : option nat) (result : string) (buffer : string)
  : exn + string :=
  let grown := result ++ c_str buffer in
  match heap with
  | Some limit => if Nat.ltb limit (String.length grown) then inl bad_alloc else inr grown
  | None => inr grown
  end.


Definition inspect {A} (a : A) : {b : A | a = b} := exist _ a eq_refl.

(** The read loop of [exec] (lines 22-24), with [char buffer[128]]:
    [while (fgets(buffer, sizeof(buffer), pipe) != nullptr) result += buffer;]
    [inl e]: the append threw [e].  Every successful [fgets] consumes at
    least one character, which is why the loop ends. *)
Equations? exec_loop (heap : option nat) (pipe : string) (result : string)
  : exn + string by wf (String.length pipe) lt :=
  exec_loop heap pipe result with inspect (fgets 128 pipe) := {
    | exist _ None _ => inr result
    | exist _ (Some (buffer, rest)) Hread with string_append heap result buffer := {
        | inl e => inl e
        | inr result' => exec_loop heap rest result' } }.
Proof.
  assert (shorter : forall room p,
             String.length (snd (fgets_chars room p)) <= String.length p).
  { induction room as [|room IH]; intros [|c p]; simpl; auto.
    destruct (Ascii.eqb c LF); simpl; [lia|].
    specialize (IH p). destruct (fgets_chars room p); simpl in *; lia. }
  assert (consumes : forall room c p,
             String.length (snd (fgets_chars (S room) (String c p)))
             < String.length (String c p)).
  { intros room c p. specialize (shorter room p). simpl.
    destruct (Ascii.eqb c LF); simpl; [lia|].
    destruct (fgets_chars room p); simpl in *; lia. }
  destruct pipe as [|c pipe]; [discriminate|].
  unfold fgets in Hread. change (128 - 1) with (S 126) in Hread.
  specialize (consumes 126 c pipe).
  destruct (fgets_chars (S 126) (String c pipe)) as [b r].
  inversion Hread; subst. exact consumes.
Qed.

Definition lift {A} (r : exn + A) : M A :=
  match r with
  | inl e => throw e
  | inr a => ret a
  end.

(** [std::string exec(const char* cmd)] (lines 16-31). *)
Definition exec (os : OS) (cmd : string) : M string :=
  pipe <- _popen os (c_str cmd) "r" ;;
  match pipe with
  | None => throw (runtime_error "_popen() failed!")
  | Some pipe =>
      result <- try_catch (lift (exec_loop (heap_limit os) (unread pipe) ""))
                          (fun e => _pclose pipe ;; throw e) ;;
      _pclose pipe ;;
      ret result
  end.

(** The local [command] of [checkNvencAvailable] (line 37). *)
Definition probe_command : string :=
  "ffmpeg -hide_banner -encoders | findstr h264_nvenc".

(** [bool checkNvencAvailable()] (lines 34-53). *)
Definition checkNvencAvailable (os : OS) : M bool :=
  try_catch
    (let command := probe_command in
     cout ("Checking for NVENC availability..." ++ endl) ;;
     output <- exec os command ;;
     match find output "h264_nvenc" with
     | Some _ =>
         cout ("NVENC encoder found." ++ endl) ;;
         ret true
     | None =>
         cerr ("Error: h264_nvenc encoder not found by FFmpeg." ++ endl) ;;
         cerr ("Please ensure you have NVIDIA drivers installed and an FFmpeg build with NVENC enabled." ++ endl) ;;
         ret false
     end)
    (fun e =>
       cerr ("Error checking for NVENC: " ++ what os e ++ endl) ;;
       cerr ("Is FFmpeg installed and in your system's PATH?" ++ endl) ;;
       ret false).

(** What [ffmpegCmdStream.str()] holds (lines 76-90). *)
Definition ffmpegCmd (targetIp : string) : string :=
  "ffmpeg -hide_banner "
  ++ "-f gdigrab "
  ++ "-framerate " ++ dec_of_int FRAME_RATE ++ " "
  ++ "-i desktop "
  ++ "-c:v h264_nvenc "
  ++ "-preset p1 "
  ++ "-tune ll "
  ++ "-qp 0 "
  ++ "-rc constqp "
  ++ "-f mpegts "
  ++ "udp://" ++ targetIp ++ ":" ++ dec_of_int TARGET_PORT.

(** [CreateProcessA(NULL, lpCommandLine, ...)]: the command line is the C
    string at [lpCommandLine]. *)
Definition CreateProcessA (os : OS) (lpCommandLine : string)
  : M (DWORD + PROCESS_INFORMATION) :=
  let cmdline := c_str lpCommandLine in
  let res := create_process os cmdline in
  emit (EvCreateProcess cmdline res) ;; ret res.

(** [WaitForSingleObject(h, INFINITE)] *)
Definition WaitForSingleObject (os : OS) (h : HANDLE) : M unit :=
  match child_exit os h with
  | Some _ => emit (EvWait h)
  | None => ([EvWait h], Blocked)
  end.

Definition CloseHandle (h : HANDLE) : M unit := emit (EvCloseHandle h).

(** [int main(int argc, char* argv[])] (lines 56-134); [argc] is the
    length of [argv]. *)
Definition main (os : OS) (argv : list string) : M Z :=
  let argc := List.length argv in
  let targetIp := DEFAULT_TARGET_IP in
  targetIp <- (if Nat.ltb 1 argc then
                 let targetIp := c_str (nth 1 argv "") in
                 (cout ("Using target IP from command line: " ++ targetIp ++ endl) ;;
                  ret targetIp)
               else
                 (cout ("Using default target IP: " ++ targetIp ++ endl) ;;
                  ret targetIp)) ;;
  nvenc <- checkNvencAvailable os ;;
  if negb nvenc then ret 1%Z
  else
    let ffmpegCmd := ffmpegCmd targetIp in
    cout (nl ++ "Executing FFmpeg command:" ++ nl ++ ffmpegCmd ++ nl ++ endl) ;;
    let cmdVec := ffmpegCmd ++ String NUL EmptyString in
    created <- CreateProcessA os cmdVec ;;
    match created with
    | inl last_error =>
        cerr ("CreateProcess failed (" ++ dec_of_DWORD last_error ++ ")." ++ nl) ;;
        cerr ("Ensure ffmpeg.exe is in your system's PATH or in the same directory as sender.exe." ++ endl) ;;
        ret 1%Z
    | inr pi =>
        cout ("Streaming started... Press Ctrl+C in this window to stop." ++ endl) ;;
        WaitForSingleObject os (hProcess pi) ;;
        cout ("Streaming stopped." ++ endl) ;;
        CloseHandle (hProcess pi) ;;
        CloseHandle (hThread pi) ;;
        ret 0%Z
    end.

(* ===================================================================== *)
(** ** Vocabulary of the properties *)
(* ===================================================================== *)

(** [needle] occurs in [s]. *)
Definition Substring (needle s : string) : Prop :=
  exists pre post, s = pre ++ needle ++ post.

(** Blanks end an argument on a Windows command line. *)
Definition command_separator (c : ascii) : bool :=
  Ascii.eqb c SP || Ascii.eqb c TAB.

Fixpoint no_separator (s : string) : bool :=
  match s with
  | EmptyString => true
  | String c s' => negb (command_separator c) && no_separator s'
  end.

Definition flush (cur : string) : list string :=
  match cur with
  | EmptyString => []
  | _ => [cur]
  end.

(** The tokens of a command line: its maximal runs of characters that are
    not separators.  [cur] is the token being read. *)
Fixpoint tokens_from (cur s : string) : list string :=
  match s with
  | EmptyString => flush cur
  | String c s' =>
      if command_separator c then (flush cur ++ tokens_from EmptyString s')%list
      else tokens_from (cur ++ String c EmptyString) s'
  end.

Definition tokens (s : string) : list string := tokens_from EmptyString s.

(** The command lines handed to CreateProcessA in a trace, in order. *)
Fixpoint launches (tr : trace) : list string :=
  match tr with
  | [] => []
  | EvCreateProcess cmdline _ :: tr' => cmdline :: launches tr'
  | _ :: tr' => launches tr'
  end.

(** Everything written to [std::cerr] in a trace. *)
Fixpoint diagnostics (tr : trace) : list string :=
  match tr with
  | [] => []
  | EvCerr text :: tr' => text :: diagnostics tr'
  | _ :: tr' => diagnostics tr'
  end.

(** The target host [main] settles on (lines 57-65). *)
Definition resolved_target (argv : list string) : string :=
  match argv with
  | _ :: host :: _ => c_str host
  | _ => DEFAULT_TARGET_IP
  end.

(** Operating-system resources a process holds. *)
Inductive resource :=
| Pipe (fd : N)
| Handle (h : HANDLE).

Definition resource_eqb (r1 r2 : resource) : bool :=
  match r1, r2 with
  | Pipe a, Pipe b => N.eqb a b
  | Handle a, Handle b => N.eqb a b
  | _, _ => false
  end.

Fixpoint release (r : resource) (held : list resource) : list resource :=
  match held with
  | [] => []
  | r' :: held' => if resource_eqb r r' then held' else r' :: release r held'
  end.

Definition held_step (held : list resource) (ev : event) : list resource :=
  match ev with
  | EvPopen _ _ (Some fd) => Pipe fd :: held
  | EvPclose fd => release (Pipe fd) held
  | EvCreateProcess _ (inr pi) => Handle (hProcess pi) :: Handle (hThread pi) :: held
  | EvCloseHandle h => release (Handle h) held
  | _ => held
  end.

(** The resources acquired and not yet released at the end of a trace. *)
Definition held_after (tr : trace) : list resource := fold_left held_step tr [].

(** The line of [ffmpeg -encoders] that survives [findstr h264_nvenc]. *)
Definition nvenc_listing : string :=
  " V....D h264_nvenc           NVIDIA NVENC H.264 encoder (codec h264)" ++ nl.

(** A machine with NVENC whose FFmpeg starts and later exits with [code]. *)
Definition os_streaming (code : DWORD) : OS := {|
  popen_pipe := fun _ =>
    Some {| fileno := 3%N; unread := nvenc_listing |};
  heap_limit := None;
  bad_alloc_what := "bad allocation";
  create_process := fun _ => inr {| hProcess := 100%N; hThread := 104%N |};
  child_exit := fun _ => Some code
|}.

(** A machine whose FFmpeg lists no NVENC encoder. *)
Definition os_no_nvenc : OS := {|
  popen_pipe := fun _ => Some {| fileno := 3%N; unread := EmptyString |};
  heap_limit := None;
  bad_alloc_what := "bad allocation";
  create_process := fun _ => inr {| hProcess := 100%N; hThread := 104%N |};
  child_exit := fun _ => Some 0%N
|}.

(** A machine on which [_popen] fails. *)
Definition os_no_pipe : OS := {|
  popen_pipe := fun _ => None;
  heap_limit := None;
  bad_alloc_what := "bad allocation";
  create_process := fun _ => inr {| hProcess := 100%N; hThread := 104%N |};
  child_exit := fun _ => Some 0%N
|}.

(** A machine with NVENC that refuses to start FFmpeg
    (2 is ERROR_FILE_NOT_FOUND). *)
Definition os_no_ffmpeg_exe : OS := {|
  popen_pipe := fun _ =>
    Some {| fileno := 3%N; unread := nvenc_listing |};
  heap_limit := None;
  bad_alloc_what := "bad allocation";
  create_process := fun _ => inl 2%N;
  child_exit := fun _ => None
|}.

(** A machine that runs out of memory while the probe output is read. *)
Definition os_low_memory : OS := {|
  popen_pipe := fun _ =>
    Some {| fileno := 3%N; unread := nvenc_listing |};
  heap_limit := Some 16;
  bad_alloc_what := "bad allocation";
  create_process := fun _ => inr {| hProcess := 100%N; hThread := 104%N |};
  child_exit := fun _ => Some 0%N
|}.

(** No line feed in [s]. *)
Fixpoint no_newline (s : string) : bool :=
  match s with
  | EmptyString => true
  | String c s' => negb (Ascii.eqb c LF) && no_newline s'
  end.

(** The resources held along a trace, refusing what a correct program
    never does: [None] as soon as a pipe or a handle is closed, or a
    handle is waited on, that is not held at that point. *)
Definition guarded_step (held : option (list resource)) (ev : event)
  : option (list resource) :=
  match held with
  | None => None
  | Some held =>
      match ev with
      | EvPclose fd =>
          if existsb (resource_eqb (Pipe fd)) held
          then Some (release (Pipe fd) held) else None
      | EvCloseHandle h =>
          if existsb (resource_eqb (Handle h)) held
          then Some (release (Handle h) held) else None
      | EvWait h =>
          if existsb (resource_eqb (Handle h)) held then Some held else None
      | _ => Some (held_step held ev)
      end
  end.

Definition held_checked (tr : trace) : option (list resource) :=
  fold_left guarded_step tr (Some []).


(** A listing in which the encoder name straddles the 127-character
    boundary of the first [fgets]. *)
Definition long_listing : string :=
  ".........................................................................................................................." ++ "h264_nvenc" ++ nl.

Definition os_long_line : OS := {|
  popen_pipe := fun _ => Some {| fileno := 3%N; unread := long_listing |};
  heap_limit := None;
  bad_alloc_what := "bad allocation";
  create_process := fun _ => inr {| hProcess := 100%N; hThread := 104%N |};
  child_exit := fun _ => Some 0%N
|}.

(* ===================================================================== *)
(** ** Facts about text *)
(* ===================================================================== *)

Lemma append_assoc (a b c : string) : (a ++ b) ++ c = a ++ b ++ c.
Proof. induction a as [|x a IH]; simpl; [reflexivity | now rewrite IH]. Qed.

Lemma append_nil_r (a : string) : a ++ "" = a.
Proof. induction a as [|x a IH]; simpl; [reflexivity | now rewrite IH]. Qed.

Lemma length_append (a b : string) :
  String.length (a ++ b) = String.length a + String.length b.
Proof. induction a as [|x a IH]; simpl; [reflexivity | now rewrite IH]. Qed.

Lemma prefix_append (a b : string) : prefix a (a ++ b) = true.
Proof.
  induction a as [|x a IH]; simpl; [now destruct b|].
  destruct (ascii_dec x x); [exact IH | congruence].
Qed.

Lemma prefix_split (a s : string) :
  prefix a s = true -> exists post, s = a ++ post.
Proof.
  revert s; induction a as [|x a IH]; intros s H.
  - exists s; reflexivity.
  - destruct s as [|y s]; simpl in H; [discriminate|].
    destruct (ascii_dec x y) as [->|]; [|discriminate].
    destruct (IH s H) as [post ->]. exists post; reflexivity.
Qed.

Lemma find_unfold (s needle : string) :
  find s needle =
  if prefix needle s then Some 0
  else match s with
       | EmptyString => None
       | String _ s' => option_map S (find s' needle)
       end.
Proof. destruct s; reflexivity. Qed.

(** [find] is substring search: it reports a position exactly when the
    needle occurs, and the needle then sits at that position. *)
Lemma find_some (s needle : string) (i : nat) :
  find s needle = Some i ->
  exists pre post, s = pre ++ needle ++ post /\ String.length pre = i.
Proof.
  revert i; induction s as [|c s IH]; intros i; rewrite find_unfold;
    destruct (prefix needle _) eqn:P.
  - intros [= <-]. destruct (prefix_split _ _ P) as [post E].
    exists "", post; split; [exact E | reflexivity].
  - discriminate.
  - intros [= <-]. destruct (prefix_split _ _ P) as [post E].
    exists "", post; split; [exact E | reflexivity].
  - destruct (find s needle) as [j|]; [|discriminate].
    intros [= <-]. destruct (IH j eq_refl) as (pre & post & -> & L).
    exists (String c pre), post; split; [reflexivity | simpl; now rewrite L].
Qed.

Lemma find_occurs (needle pre post : string) :
  find (pre ++ needle ++ post) needle <> None.
Proof.
  induction pre as [|c pre IH]; rewrite find_unfold.
  - simpl append. rewrite prefix_append; discriminate.
  - destruct (prefix needle _); [discriminate|]. simpl.
    destruct (find (pre ++ needle ++ post) needle); [discriminate | contradiction].
Qed.

Lemma find_spec (s needle : string) :
  find s needle <> None <-> Substring needle s.
Proof.
  split.
  - destruct (find s needle) as [i|] eqn:F; [|contradiction].
    intros _. destruct (find_some _ _ F) as (pre & post & E & _).
    exists pre, post; exact E.
  - intros (pre & post & ->). apply find_occurs.
Qed.

Lemma find_none (s needle : string) :
  find s needle = None <-> ~ Substring needle s.
Proof.
  rewrite <- find_spec. destruct (find s needle).
  - split; [discriminate | intros H; exfalso; apply H; discriminate].
  - split; [intros _ H; apply H; reflexivity | reflexivity].
Qed.

Lemma c_str_idempotent (p : string) : c_str (c_str p) = c_str p.
Proof.
  induction p as [|c p IH]; simpl; [reflexivity|].
  destruct (Ascii.eqb c NUL) eqn:E; simpl; [reflexivity|].
  now rewrite E, IH.
Qed.

(** A NUL-free text is read whole. *)
Lemma c_str_append (s t : string) :
  c_str s = s -> c_str (s ++ t) = s ++ c_str t.
Proof.
  induction s as [|c s IH]; simpl; [reflexivity|].
  destruct (Ascii.eqb c NUL); [discriminate|].
  intros [= Hs]. now rewrite IH.
Qed.

(* ===================================================================== *)
(** ** How the probe and the program run *)
(* ===================================================================== *)

(** What [exec] hands back for the probe command: the captured output, or
    the exception that leaves [exec]. *)
Lemma exec_cases (os : OS) (cmd : string) :
  exec os cmd =
  match popen_pipe os (c_str cmd) with
  | None =>
      ([EvPopen (c_str cmd) "r" None], Throw (runtime_error "_popen() failed!"))
  | Some pipe =>
      ([EvPopen (c_str cmd) "r" (Some (fileno pipe)); EvPclose (fileno pipe)],
       match exec_loop (heap_limit os) (unread pipe) "" with
       | inl e => Throw e
       | inr output => Ret output
       end)
  end.
Proof.
  unfold exec, _popen. destruct (popen_pipe os (c_str cmd)) as [pipe|]; simpl.
  - destruct (exec_loop (heap_limit os) (unread pipe) ""); reflexivity.
  - reflexivity.
Qed.

Lemma probe_cases (os : OS) :
  checkNvencAvailable os =
  let checking := EvCout ("Checking for NVENC availability..." ++ endl) in
  match exec os probe_command with
  | (t, Ret output) =>
      match find output "h264_nvenc" with
      | Some _ =>
          ((checking :: t) ++ [EvCout ("NVENC encoder found." ++ endl)], Ret true)
      | None =>
          ((checking :: t) ++
           [EvCerr ("Error: h264_nvenc encoder not found by FFmpeg." ++ endl);
            EvCerr ("Please ensure you have NVIDIA drivers installed and an FFmpeg build with NVENC enabled." ++ endl)],
           Ret false)
      end
  | (t, Throw e) =>
      ((checking :: t) ++
       [EvCerr ("Error checking for NVENC: " ++ what os e ++ endl);
        EvCerr ("Is FFmpeg installed and in your system's PATH?" ++ endl)],
       Ret false)
  | (t, Blocked) => (checking :: t, Blocked)
  end%list.
Proof.
  unfold checkNvencAvailable.
  destruct (exec os probe_command) as [t [output|e|]]; simpl.
  - destruct (find output "h264_nvenc"); simpl; rewrite ?app_nil_r; reflexivity.
  - rewrite ?app_nil_r; reflexivity.
  - reflexivity.
Qed.

(** The fixed part of the streaming command line. *)
Lemma ffmpegCmd_shape (targetIp : string) :
  ffmpegCmd targetIp =
  "ffmpeg -hide_banner -f gdigrab -framerate 60 -i desktop -c:v h264_nvenc -preset p1 -tune ll -qp 0 -rc constqp -f mpegts udp://"
  ++ targetIp ++ ":5555".
Proof. reflexivity. Qed.

(** CreateProcessA reads back exactly the command line that was built. *)
Lemma cmdVec_c_str (targetIp : string) :
  c_str targetIp = targetIp ->
  c_str (ffmpegCmd targetIp ++ String NUL EmptyString) = ffmpegCmd targetIp.
Proof.
  intros H. rewrite ffmpegCmd_shape, !append_assoc.
  rewrite c_str_append by reflexivity.
  rewrite c_str_append by exact H.
  reflexivity.
Qed.

Lemma resolved_target_c_str (argv : list string) :
  c_str (resolved_target argv) = resolved_target argv.
Proof.
  destruct argv as [|a0 [|a1 rest]]; try reflexivity.
  apply c_str_idempotent.
Qed.

(** Every run of [main], by what the probe, CreateProcessA and the child
    do. *)
Lemma main_cases (os : OS) (argv : list string) :
  main os argv =
  let targetIp := resolved_target argv in
  let cmd := ffmpegCmd targetIp in
  let greeting :=
    EvCout (if Nat.ltb 1 (List.length argv)
            then "Using target IP from command line: " ++ targetIp ++ endl
            else "Using default target IP: " ++ targetIp ++ endl) in
  let executing :=
    EvCout (nl ++ "Executing FFmpeg command:" ++ nl ++ cmd ++ nl ++ endl) in
  match checkNvencAvailable os with
  | (t, Ret true) =>
      match create_process os cmd with
      | inl last_error =>
          ((greeting :: t) ++
           [executing;
            EvCreateProcess cmd (inl last_error);
            EvCerr ("CreateProcess failed (" ++ dec_of_DWORD last_error ++ ")." ++ nl);
            EvCerr ("Ensure ffmpeg.exe is in your system's PATH or in the same directory as sender.exe." ++ endl)],
           Ret 1%Z)
      | inr pi =>
          match child_exit os (hProcess pi) with
          | Some _ =>
              ((greeting :: t) ++
               [executing;
                EvCreateProcess cmd (inr pi);
                EvCout ("Streaming started... Press Ctrl+C in this window to stop." ++ endl);
                EvWait (hProcess pi);
                EvCout ("Streaming stopped." ++ endl);
                EvCloseHandle (hProcess pi);
                EvCloseHandle (hThread pi)],
               Ret 0%Z)
          | None =>
              ((greeting :: t) ++
               [executing;
                EvCreateProcess cmd (inr pi);
                EvCout ("Streaming started... Press Ctrl+C in this window to stop." ++ endl);
                EvWait (hProcess pi)],
               Blocked)
          end
      end
  | (t, Ret false) => ((greeting :: t) ++ [], Ret 1%Z)
  | (t, Throw e) => (greeting :: t, Throw e)
  | (t, Blocked) => (greeting :: t, Blocked)
  end%list.
Proof.
  unfold main, CreateProcessA, WaitForSingleObject.
  assert (Htarget :
    (if Nat.ltb 1 (List.length argv) then c_str (nth 1 argv "") else DEFAULT_TARGET_IP)
    = resolved_target argv).
  { destruct argv as [|a0 [|a1 rest]]; reflexivity. }
  pose proof (cmdVec_c_str (resolved_target_c_str argv)) as Hcmd.
  destruct (Nat.ltb 1 (List.length argv)); rewrite <- Htarget in *;
    cbv zeta; unfold cout, cerr, emit, ret, bind at 1;
    destruct (checkNvencAvailable os) as [t [[|]|e|]];
    cbn [bind negb]; try reflexivity.
  all: rewrite Hcmd.
  all: destruct (create_process os _) as [code|pi]; cbn [bind].
  all: try reflexivity.
  all: destruct (child_exit os (hProcess pi)); reflexivity.
Qed.

(** [fgets] hands over a front part of the stream and keeps the rest. *)
Lemma fgets_chars_split (room : nat) (p : string) :
  fst (fgets_chars room p) ++ snd (fgets_chars room p) = p.
Proof.
  revert p; induction room as [|room IH]; intros [|c p]; simpl; try reflexivity.
  destruct (Ascii.eqb c LF); simpl; [reflexivity|].
  specialize (IH p). destruct (fgets_chars room p); simpl in *. now rewrite IH.
Qed.

Lemma fgets_split (n : nat) (pipe buffer rest : string) :
  fgets n pipe = Some (buffer, rest) -> pipe = buffer ++ rest.
Proof.
  unfold fgets. destruct pipe as [|c pipe]; [discriminate|].
  intros [= H]. pose proof (fgets_chars_split (n - 1) (String c pipe)) as S.
  rewrite H in S. symmetry; exact S.
Qed.

Lemma c_str_append_inv (a b : string) :
  c_str (a ++ b) = a ++ b -> c_str a = a /\ c_str b = b.
Proof.
  induction a as [|c a IH]; simpl; [auto|].
  destruct (Ascii.eqb c NUL); [discriminate|].
  intros [= H]. destruct (IH H) as [-> Hb]. auto.
Qed.

(** With memory to spare, the loop of [exec] captures a NUL-free stream
    whole, whatever the line lengths. *)
Lemma exec_loop_text (heap : option nat) (pipe result : string) :
  heap = None -> c_str pipe = pipe ->
  exec_loop heap pipe result = inr (result ++ pipe).
Proof.
  funelim (exec_loop heap pipe result); intros -> Hp.
  - destruct pipe; [now rewrite append_nil_r | discriminate].
  - discriminate.
  - pose proof (fgets_split _ _ Hread) as Hsplit.
    rewrite Hsplit in Hp |- *.
    destruct (c_str_append_inv _ _ Hp) as [Hb Hr].
    unfold string_append in Heq. rewrite Hb in Heq. injection Heq as <-.
    match goal with IH : _ -> _ -> exec_loop _ _ _ = inr _ |- _ =>
      rewrite IH by auto end.
    now rewrite append_assoc.
Qed.

Lemma exec_text (os : OS) (cmd : string) (pipe : FILE) :
  popen_pipe os (c_str cmd) = Some pipe ->
  heap_limit os = None ->
  c_str (unread pipe) = unread pipe ->
  result (exec os cmd) = Ret (unread pipe).
Proof.
  intros Hp Hh Ht. rewrite exec_cases, Hp. unfold result; simpl.
  now rewrite (exec_loop_text _ Hh Ht).
Qed.

Lemma tokens_from_run (s cur : string) :
  no_separator s = true -> tokens_from cur s = flush (cur ++ s).
Proof.
  revert cur; induction s as [|c s IH]; intros cur; simpl.
  - now rewrite append_nil_r.
  - destruct (command_separator c); simpl; [discriminate|].
    intros H. rewrite IH by exact H. now rewrite append_assoc.
Qed.

Lemma no_separator_append (a b : string) :
  no_separator (a ++ b) = no_separator a && no_separator b.
Proof.
  induction a as [|c a IH]; simpl; [reflexivity|].
  now rewrite IH, andb_assoc.
Qed.

(** The streaming command line, argument by argument. *)
Lemma ffmpegCmd_tokens (targetIp : string) :
  no_separator targetIp = true ->
  tokens (ffmpegCmd targetIp) =
  ["ffmpeg"; "-hide_banner"; "-f"; "gdigrab"; "-framerate"; "60";
   "-i"; "desktop"; "-c:v"; "h264_nvenc"; "-preset"; "p1"; "-tune"; "ll";
   "-qp"; "0"; "-rc"; "constqp"; "-f"; "mpegts";
   "udp://" ++ targetIp ++ ":5555"].
Proof.
  intros H. rewrite ffmpegCmd_shape. unfold tokens. cbn.
  rewrite tokens_from_run.
  - reflexivity.
  - rewrite no_separator_append, H. reflexivity.
Qed.

(* ===================================================================== *)
(** ** The command line *)
(* ===================================================================== *)

(** C1. For every host without command-separator characters (blanks), the
    streaming command line ends in the token [udp://<host>:5555], with
    the fixed port 5555, and carries the argument pair [-framerate 60],
    the fixed frame rate, both as adjacent tokens and as literal text. *)
Theorem stream_command_destination_and_framerate (host : string) :
  no_separator host = true ->
  last (tokens (ffmpegCmd host)) "" = "udp://" ++ host ++ ":5555"
  /\ (exists before after,
         tokens (ffmpegCmd host) = (before ++ ["-framerate"; "60"] ++ after)%list)
  /\ Substring "-framerate 60" (ffmpegCmd host)
  /\ TARGET_PORT = 5555%Z /\ FRAME_RATE = 60%Z.
Proof.
  intros H. rewrite (ffmpegCmd_tokens _ H). repeat split.
  - exists ["ffmpeg"; "-hide_banner"; "-f"; "gdigrab"].
    eexists. reflexivity.
  - exists "ffmpeg -hide_banner -f gdigrab ".
    eexists. rewrite ffmpegCmd_shape. cbn. reflexivity.
Qed.

Lemma stream_command_destination_and_framerate_witness :
  last (tokens (ffmpegCmd "10.0.0.5")) "" = "udp://10.0.0.5:5555"
  /\ (exists before after,
         tokens (ffmpegCmd "10.0.0.5") = (before ++ ["-framerate"; "60"] ++ after)%list)
  /\ Substring "-framerate 60" (ffmpegCmd "10.0.0.5")
  /\ TARGET_PORT = 5555%Z /\ FRAME_RATE = 60%Z.
Proof.
  apply (stream_command_destination_and_framerate "10.0.0.5"). reflexivity.
Defined.

(** A blank inside the host does split the destination: the condition
    on the host cannot be dropped. *)
Example host_with_blank_is_split :
  last (tokens (ffmpegCmd "10.0.0.5 -y")) "" = "-y:5555".
Proof. reflexivity. Qed.

Lemma substring_middle (a b c : string) :
  substring (String.length a) (String.length b) (a ++ b ++ c) = b.
Proof.
  induction a as [|x a IH]; simpl; [|exact IH].
  induction b as [|y b IHb]; simpl.
  - now destruct c.
  - now rewrite IHb.
Qed.

(** C8. For every host string whatsoever, blanks and command-line
    metacharacters included, the builder places the host unchanged,
    character for character, between [udp://] and [:5555]: nothing is
    quoted, escaped, dropped or rejected. *)
Theorem host_is_embedded_verbatim (host : string) :
  let fixed := "ffmpeg -hide_banner -f gdigrab -framerate 60 -i desktop -c:v h264_nvenc -preset p1 -tune ll -qp 0 -rc constqp -f mpegts " in
  ffmpegCmd host = fixed ++ "udp://" ++ host ++ ":5555"
  /\ substring (String.length (fixed ++ "udp://")) (String.length host) (ffmpegCmd host) = host
  /\ String.length (ffmpegCmd host) = String.length (fixed ++ "udp://") + String.length host + String.length ":5555".
Proof.
  intros fixed. split; [reflexivity|]. split.
  - change (ffmpegCmd host) with ((fixed ++ "udp://") ++ host ++ ":5555").
    apply substring_middle.
  - change (ffmpegCmd host) with ((fixed ++ "udp://") ++ host ++ ":5555").
    rewrite !length_append. lia.
Qed.

Example host_with_metacharacters :
  ffmpegCmd "10.0.0.5 & calc.exe "
  = "ffmpeg -hide_banner -f gdigrab -framerate 60 -i desktop -c:v h264_nvenc -preset p1 -tune ll -qp 0 -rc constqp -f mpegts udp://10.0.0.5 & calc.exe :5555".
Proof. reflexivity. Qed.

(* ===================================================================== *)
(** ** The capability probe *)
(* ===================================================================== *)

Lemma launches_app (t1 t2 : trace) :
  launches (t1 ++ t2)%list = (launches t1 ++ launches t2)%list.
Proof.
  induction t1 as [|ev t1 IH]; simpl; [reflexivity|].
  destruct ev; simpl; now rewrite IH.
Qed.

Lemma diagnostics_app (t1 t2 : trace) :
  diagnostics (t1 ++ t2)%list = (diagnostics t1 ++ diagnostics t2)%list.
Proof.
  induction t1 as [|ev t1 IH]; simpl; [reflexivity|].
  destruct ev; simpl; now rewrite IH.
Qed.

Lemma held_after_app (t1 t2 : trace) :
  held_after (t1 ++ t2)%list = fold_left held_step t2 (held_after t1).
Proof. unfold held_after. apply fold_left_app. Qed.

(** Splits a goal about the probe into its four paths: [_popen] failed,
    reading threw, the encoder was found, the encoder was not found. *)
Ltac probe_paths os :=
  rewrite probe_cases, exec_cases; cbv zeta;
  destruct (popen_pipe os (c_str probe_command)) as [?pipe|];
  [ destruct (exec_loop (heap_limit os) (unread pipe) "") as [?e|?output];
    [ | destruct (find output "h264_nvenc") ]
  | ].

(** The probe returns a boolean: it never throws and never blocks. *)
Lemma probe_returns (os : OS) :
  exists found, result (checkNvencAvailable os) = Ret found.
Proof.
  probe_paths os; eexists; reflexivity.
Qed.

(** The probe starts no process with CreateProcessA. *)
Lemma probe_launches_nothing (os : OS) :
  launches (events (checkNvencAvailable os)) = [].
Proof.
  probe_paths os; reflexivity.
Qed.

(** The pipe of [exec] is closed again however the reading ends. *)
Lemma exec_holds_nothing (os : OS) (cmd : string) :
  held_after (events (exec os cmd)) = [].
Proof.
  rewrite exec_cases. destruct (popen_pipe os (c_str cmd)) as [pipe|].
  - unfold held_after, events; simpl. now rewrite N.eqb_refl.
  - reflexivity.
Qed.

Lemma probe_holds_nothing (os : OS) :
  held_after (events (checkNvencAvailable os)) = [].
Proof.
  probe_paths os; unfold held_after, events; simpl;
    rewrite ?N.eqb_refl; reflexivity.
Qed.

Lemma probe_answer (os : OS) (output : string) :
  result (exec os probe_command) = Ret output ->
  result (checkNvencAvailable os) =
  Ret (match find output "h264_nvenc" with Some _ => true | None => false end).
Proof.
  intros Hexec. rewrite probe_cases. cbv zeta.
  destruct (exec os probe_command) as [t r].
  unfold result in Hexec; simpl in Hexec; subst r.
  destruct (find output "h264_nvenc"); reflexivity.
Qed.

Lemma events_pair {A} (t : trace) (r : outcome A) : events (t, r) = t.
Proof. reflexivity. Qed.

Lemma result_pair {A} (t : trace) (r : outcome A) : result (t, r) = r.
Proof. reflexivity. Qed.

Lemma run_split {A} (m : M A) (r : outcome A) :
  result m = r -> m = (events m, r).
Proof. destruct m; unfold result, events; simpl; congruence. Qed.

(** C2. The probe answers true exactly when the text captured from the
    encoder-listing subprocess contains [h264_nvenc], and false for every
    captured text without it.  The captured text is the subprocess's
    standard output itself whenever that output is NUL-free text and
    memory suffices. *)
Theorem probe_true_iff_output_names_encoder (os : OS) (output : string) :
  result (exec os probe_command) = Ret output ->
  (result (checkNvencAvailable os) = Ret true <-> Substring "h264_nvenc" output)
  /\ (~ Substring "h264_nvenc" output ->
      result (checkNvencAvailable os) = Ret false)
  /\ (forall pipe,
         popen_pipe os probe_command = Some pipe ->
         heap_limit os = None ->
         c_str (unread pipe) = unread pipe ->
         output = unread pipe).
Proof.
  intros Hexec. rewrite (probe_answer _ Hexec). repeat split.
  - destruct (find output "h264_nvenc") eqn:F; [|discriminate].
    intros _. apply find_spec. rewrite F; discriminate.
  - intros H. apply find_spec in H.
    destruct (find output "h264_nvenc"); [reflexivity | contradiction].
  - intros H. apply find_none in H. now rewrite H.
  - intros pipe Hp Hh Ht.
    pose proof (exec_text os probe_command Hp Hh Ht) as R. congruence.
Qed.

Lemma probe_true_iff_output_names_encoder_witness :
  (result (checkNvencAvailable (os_streaming 0%N)) = Ret true
   <-> Substring "h264_nvenc" nvenc_listing)
  /\ (~ Substring "h264_nvenc" nvenc_listing ->
      result (checkNvencAvailable (os_streaming 0%N)) = Ret false)
  /\ (forall pipe,
         popen_pipe (os_streaming 0%N) probe_command = Some pipe ->
         heap_limit (os_streaming 0%N) = None ->
         c_str (unread pipe) = unread pipe ->
         nvenc_listing = unread pipe).
Proof.
  apply (probe_true_iff_output_names_encoder (os_streaming 0%N)).
  reflexivity.
Defined.

(** C4. When [_popen] fails, [exec] throws, and the probe catches it:
    it writes the diagnostic to [std::cerr] and returns false.  No
    exception leaves the probe, on this or any other machine. *)
Theorem popen_failure_is_reported_as_false (os : OS) :
  popen_pipe os probe_command = None ->
  result (exec os probe_command) = Throw (runtime_error "_popen() failed!")
  /\ checkNvencAvailable os =
     ([EvCout ("Checking for NVENC availability..." ++ endl);
       EvPopen probe_command "r" None;
       EvCerr ("Error checking for NVENC: _popen() failed!" ++ endl);
       EvCerr ("Is FFmpeg installed and in your system's PATH?" ++ endl)],
      Ret false)
  /\ (forall os' e, result (checkNvencAvailable os') <> Throw e).
Proof.
  intros Hp. repeat split.
  - rewrite exec_cases.
    change (c_str probe_command) with probe_command. now rewrite Hp.
  - rewrite probe_cases, exec_cases.
    change (c_str probe_command) with probe_command. now rewrite Hp.
  - intros os' e. destruct (probe_returns os') as [found ->]. discriminate.
Qed.

Lemma popen_failure_is_reported_as_false_witness :
  result (exec os_no_pipe probe_command) = Throw (runtime_error "_popen() failed!")
  /\ checkNvencAvailable os_no_pipe =
     ([EvCout ("Checking for NVENC availability..." ++ endl);
       EvPopen probe_command "r" None;
       EvCerr ("Error checking for NVENC: _popen() failed!" ++ endl);
       EvCerr ("Is FFmpeg installed and in your system's PATH?" ++ endl)],
      Ret false)
  /\ (forall os' e, result (checkNvencAvailable os') <> Throw e).
Proof.
  apply (popen_failure_is_reported_as_false os_no_pipe). reflexivity.
Defined.

(* ===================================================================== *)
(** ** Runs of the program *)
(* ===================================================================== *)

(** C3. When the captured probe output lacks the encoder name, the probe
    answers false, [main] returns 1, and the trace of the run holds no
    call of CreateProcessA. *)
Theorem missing_encoder_exits_1_without_launch
    (os : OS) (argv : list string) (output : string) :
  result (exec os probe_command) = Ret output ->
  ~ Substring "h264_nvenc" output ->
  result (checkNvencAvailable os) = Ret false
  /\ result (main os argv) = Ret 1%Z
  /\ launches (events (main os argv)) = [].
Proof.
  intros Hexec Hno. apply find_none in Hno.
  pose proof (probe_answer _ Hexec) as Hprobe. rewrite Hno in Hprobe.
  split; [exact Hprobe|].
  rewrite main_cases, (run_split _ Hprobe). cbv zeta.
  rewrite events_pair, result_pair, launches_app.
  cbn [app launches]. rewrite probe_launches_nothing. auto.
Qed.

Lemma missing_encoder_exits_1_without_launch_witness :
  result (checkNvencAvailable os_no_nvenc) = Ret false
  /\ result (main os_no_nvenc ["sender"; "10.0.0.5"]) = Ret 1%Z
  /\ launches (events (main os_no_nvenc ["sender"; "10.0.0.5"])) = [].
Proof.
  apply (missing_encoder_exits_1_without_launch
           os_no_nvenc ["sender"; "10.0.0.5"] (output := "")).
  - reflexivity.
  - apply find_none. reflexivity.
Defined.

(** A probe that answers true has written nothing to [std::cerr]. *)
Lemma probe_true_is_quiet (os : OS) :
  result (checkNvencAvailable os) = Ret true ->
  diagnostics (events (checkNvencAvailable os)) = [].
Proof.
  probe_paths os; (discriminate || reflexivity).
Qed.

(** C5. When CreateProcessA refuses the streaming command, [main] writes
    a diagnostic to [std::cerr] that contains the error code reported by
    GetLastError, in decimal, and returns 1. *)
Theorem create_process_failure_exits_1
    (os : OS) (argv : list string) (code : DWORD) :
  result (checkNvencAvailable os) = Ret true ->
  create_process os (ffmpegCmd (resolved_target argv)) = inl code ->
  let diagnostic := "CreateProcess failed (" ++ dec_of_DWORD code ++ ")." ++ nl in
  result (main os argv) = Ret 1%Z
  /\ In diagnostic (diagnostics (events (main os argv)))
  /\ Substring (dec_of_DWORD code) diagnostic
  /\ launches (events (main os argv)) = [ffmpegCmd (resolved_target argv)].
Proof.
  intros Hprobe Hcreate diagnostic.
  rewrite main_cases, (run_split _ Hprobe). cbv zeta. rewrite Hcreate.
  rewrite events_pair, result_pair, launches_app, diagnostics_app.
  cbn [launches diagnostics app]. rewrite probe_launches_nothing.
  repeat split.
  - apply in_or_app. right. left. reflexivity.
  - exists "CreateProcess failed (", (")." ++ nl). reflexivity.
Qed.

Lemma create_process_failure_exits_1_witness :
  result (main os_no_ffmpeg_exe ["sender"; "10.0.0.5"]) = Ret 1%Z
  /\ In ("CreateProcess failed (2)." ++ nl)
        (diagnostics (events (main os_no_ffmpeg_exe ["sender"; "10.0.0.5"])))
  /\ Substring "2" ("CreateProcess failed (2)." ++ nl)
  /\ launches (events (main os_no_ffmpeg_exe ["sender"; "10.0.0.5"]))
     = [ffmpegCmd "10.0.0.5"].
Proof.
  apply (create_process_failure_exits_1
           os_no_ffmpeg_exe ["sender"; "10.0.0.5"] (code := 2%N)).
  - reflexivity.
  - reflexivity.
Defined.

(** C6. Once CreateProcessA has started the child, [main] waits on the
    process handle.  If the child terminates, with any exit code at all,
    [main] reports that streaming stopped, closes both handles, writes
    nothing to [std::cerr] and returns 0; as long as the child does not
    terminate, [main] does not return. *)
Theorem launched_stream_waits_then_returns_0
    (os : OS) (argv : list string) (pi : PROCESS_INFORMATION) :
  result (checkNvencAvailable os) = Ret true ->
  create_process os (ffmpegCmd (resolved_target argv)) = inr pi ->
  match child_exit os (hProcess pi) with
  | Some exit_code =>
      result (main os argv) = Ret 0%Z
      /\ diagnostics (events (main os argv)) = []
      /\ exists before,
           events (main os argv) =
           (before ++
            [EvCreateProcess (ffmpegCmd (resolved_target argv)) (inr pi);
             EvCout ("Streaming started... Press Ctrl+C in this window to stop." ++ endl);
             EvWait (hProcess pi);
             EvCout ("Streaming stopped." ++ endl);
             EvCloseHandle (hProcess pi);
             EvCloseHandle (hThread pi)])%list
  | None =>
      result (main os argv) = Blocked
      /\ last (events (main os argv)) (EvWait 0%N) = EvWait (hProcess pi)
  end.
Proof.
  intros Hprobe Hcreate.
  rewrite main_cases, (run_split _ Hprobe). cbv zeta. rewrite Hcreate.
  destruct (child_exit os (hProcess pi)) as [exit_code|];
    rewrite events_pair, result_pair.
  - split; [reflexivity|]. split.
    + rewrite diagnostics_app. cbn [diagnostics app].
      rewrite (probe_true_is_quiet _ Hprobe). reflexivity.
    + eexists (_ ++ [_])%list. rewrite <- app_assoc. reflexivity.
  - split; [reflexivity|].
    match goal with |- last (?a ++ [?e1; ?e2; ?e3; ?e4])%list _ = _ =>
      change (a ++ [e1; e2; e3; e4])%list with (a ++ [e1; e2; e3] ++ [e4])%list;
      rewrite app_assoc; apply last_last
    end.
Qed.

Lemma launched_stream_waits_then_returns_0_witness :
  result (main (os_streaming 3221225786%N) ["sender"; "10.0.0.5"]) = Ret 0%Z
  /\ diagnostics (events (main (os_streaming 3221225786%N) ["sender"; "10.0.0.5"])) = []
  /\ exists before,
       events (main (os_streaming 3221225786%N) ["sender"; "10.0.0.5"]) =
       (before ++
        [EvCreateProcess (ffmpegCmd "10.0.0.5")
           (inr {| hProcess := 100%N; hThread := 104%N |});
         EvCout ("Streaming started... Press Ctrl+C in this window to stop." ++ endl);
         EvWait 100%N;
         EvCout ("Streaming stopped." ++ endl);
         EvCloseHandle 100%N;
         EvCloseHandle 104%N])%list.
Proof.
  apply (launched_stream_waits_then_returns_0
           (os_streaming 3221225786%N) ["sender"; "10.0.0.5"]
           (pi := {| hProcess := 100%N; hThread := 104%N |})).
  - reflexivity.
  - reflexivity.
Defined.

(** C7. Run without an argument ([argc = 1]), the program settles on the
    built-in default host: it announces [192.168.1.100], and the one
    command line it constructs and hands to CreateProcessA is addressed
    to [udp://192.168.1.100:5555]. *)
Theorem no_argument_targets_default_host (os : OS) (argv : list string) :
  List.length argv = 1 ->
  result (checkNvencAvailable os) = Ret true ->
  DEFAULT_TARGET_IP = "192.168.1.100"
  /\ hd_error (events (main os argv))
     = Some (EvCout ("Using default target IP: 192.168.1.100" ++ endl))
  /\ launches (events (main os argv)) = [ffmpegCmd "192.168.1.100"]
  /\ ffmpegCmd "192.168.1.100" =
     "ffmpeg -hide_banner -f gdigrab -framerate 60 -i desktop -c:v h264_nvenc -preset p1 -tune ll -qp 0 -rc constqp -f mpegts udp://192.168.1.100:5555".
Proof.
  intros Hargc Hprobe.
  destruct argv as [|argv0 [|argv1 rest]]; try discriminate.
  rewrite main_cases, (run_split _ Hprobe). cbv zeta.
  change (resolved_target [argv0]) with "192.168.1.100".
  change (Nat.ltb 1 (List.length [argv0])) with false. cbv iota.
  repeat split.
  - destruct (create_process os _) as [code|pi];
      [|destruct (child_exit os (hProcess pi))]; reflexivity.
  - destruct (create_process os _) as [code|pi];
      [|destruct (child_exit os (hProcess pi))];
      rewrite events_pair, launches_app; cbn [launches app];
      rewrite probe_launches_nothing; reflexivity.
Qed.

Lemma no_argument_targets_default_host_witness :
  DEFAULT_TARGET_IP = "192.168.1.100"
  /\ hd_error (events (main (os_streaming 0%N) ["sender"]))
     = Some (EvCout ("Using default target IP: 192.168.1.100" ++ endl))
  /\ launches (events (main (os_streaming 0%N) ["sender"]))
     = [ffmpegCmd "192.168.1.100"]
  /\ ffmpegCmd "192.168.1.100" =
     "ffmpeg -hide_banner -f gdigrab -framerate 60 -i desktop -c:v h264_nvenc -preset p1 -tune ll -qp 0 -rc constqp -f mpegts udp://192.168.1.100:5555".
Proof.
  apply (no_argument_targets_default_host (os_streaming 0%N) ["sender"]).
  - reflexivity.
  - reflexivity.
Defined.

(** C10. With [argc >= 2] only [argv[1]] reaches the program: two runs on
    the same machine whose argument vectors agree on [argv[1]] behave
    identically, event for event, whatever stands in [argv[0]] and in
    [argv[2]], [argv[3]], ...; in particular they hand the same command
    line to CreateProcessA, built from [argv[1]] alone. *)
Theorem arguments_past_first_are_ignored
    (os : OS) (argv0 argv0' host : string) (rest rest' : list string) :
  main os (argv0 :: host :: rest) = main os (argv0' :: host :: rest')
  /\ launches (events (main os (argv0 :: host :: rest)))
     = launches (events (main os (argv0' :: host :: rest')))
  /\ resolved_target (argv0 :: host :: rest) = c_str host
  /\ main os (argv0 :: host :: rest) = main os [argv0; host].
Proof.
  assert (E : forall a r, main os (a :: host :: r) = main os [argv0; host]).
  { intros a r. rewrite !main_cases. reflexivity. }
  split; [now rewrite !E|]. split; [now rewrite !E|].
  split; [reflexivity | apply E].
Qed.

(* ===================================================================== *)
(** ** Resources *)
(* ===================================================================== *)

Lemma held_after_cout (text : string) (t : trace) :
  held_after (EvCout text :: t) = held_after t.
Proof. reflexivity. Qed.

(** C9. Whenever [main] returns, on the success path and on each error
    path, no pipe and no handle acquired during the run is still held.
    The pipe opened by [exec] is closed right after reading whether the
    loop reached end of stream or threw, and a run that returns 0 ends by
    closing the process handle and the thread handle after the wait. *)
Theorem every_return_path_releases_resources
    (os : OS) (argv : list string) (code : Z) :
  result (main os argv) = Ret code ->
  held_after (events (main os argv)) = []
  /\ (forall cmd pipe,
         popen_pipe os (c_str cmd) = Some pipe ->
         events (exec os cmd)
         = [EvPopen (c_str cmd) "r" (Some (fileno pipe)); EvPclose (fileno pipe)]
         /\ held_after (events (exec os cmd)) = [])
  /\ (code = 0%Z ->
      exists before pi,
        events (main os argv) =
        (before ++
         [EvWait (hProcess pi);
          EvCout ("Streaming stopped." ++ endl);
          EvCloseHandle (hProcess pi);
          EvCloseHandle (hThread pi)])%list).
Proof.
  intros Hret. split; [|split].
  - revert Hret. rewrite main_cases. cbv zeta.
    pose proof (probe_holds_nothing os) as Hprobe.
    destruct (checkNvencAvailable os) as [t [[|]|e|]];
      rewrite events_pair in Hprobe.
    + destruct (create_process os _) as [err|pi];
        [|destruct (child_exit os (hProcess pi))];
        rewrite events_pair, result_pair; try discriminate; intros _;
        rewrite held_after_app, held_after_cout, Hprobe; simpl;
        rewrite ?N.eqb_refl; simpl; rewrite ?N.eqb_refl; reflexivity.
    + intros _. rewrite events_pair, held_after_app, held_after_cout, Hprobe.
      reflexivity.
    + discriminate.
    + discriminate.
  - intros cmd pipe Hp. split; [|apply exec_holds_nothing].
    rewrite exec_cases, Hp. reflexivity.
  - intros ->. revert Hret. rewrite main_cases. cbv zeta.
    destruct (checkNvencAvailable os) as [t [[|]|e|]]; try discriminate.
    destruct (create_process os _) as [err|pi]; [discriminate|].
    destruct (child_exit os (hProcess pi)); [|discriminate].
    intros _. rewrite events_pair. eexists (_ ++ [_; _; _])%list, pi.
    rewrite <- app_assoc. reflexivity.
Qed.

Lemma every_return_path_releases_resources_witness :
  held_after (events (main os_low_memory ["sender"])) = []
  /\ (forall cmd pipe,
         popen_pipe os_low_memory (c_str cmd) = Some pipe ->
         events (exec os_low_memory cmd)
         = [EvPopen (c_str cmd) "r" (Some (fileno pipe)); EvPclose (fileno pipe)]
         /\ held_after (events (exec os_low_memory cmd)) = [])
  /\ (1%Z = 0%Z ->
      exists before pi,
        events (main os_low_memory ["sender"]) =
        (before ++
         [EvWait (hProcess pi);
          EvCout ("Streaming stopped." ++ endl);
          EvCloseHandle (hProcess pi);
          EvCloseHandle (hThread pi)])%list).
Proof.
  apply (every_return_path_releases_resources os_low_memory ["sender"] (code := 1%Z)).
  reflexivity.
Defined.

(** The path through [catch (...)] in [exec]: the append throws, the
    pipe is closed, the exception goes on to the probe. *)
Example low_memory_probe_throws_and_closes :
  exec os_low_memory probe_command
  = ([EvPopen probe_command "r" (Some 3%N); EvPclose 3%N], Throw bad_alloc).
Proof. reflexivity. Qed.

(** The end-to-end scenario: [sender 10.0.0.5] on a machine with NVENC
    whose FFmpeg exits cleanly. *)
Example end_to_end_run :
  main (os_streaming 0%N) ["sender"; "10.0.0.5"] =
  ([EvCout ("Using target IP from command line: 10.0.0.5" ++ endl);
    EvCout ("Checking for NVENC availability..." ++ endl);
    EvPopen probe_command "r" (Some 3%N);
    EvPclose 3%N;
    EvCout ("NVENC encoder found." ++ endl);
    EvCout (nl ++ "Executing FFmpeg command:" ++ nl ++ ffmpegCmd "10.0.0.5" ++ nl ++ endl);
    EvCreateProcess (ffmpegCmd "10.0.0.5")
      (inr {| hProcess := 100%N; hThread := 104%N |});
    EvCout ("Streaming started... Press Ctrl+C in this window to stop." ++ endl);
    EvWait 100%N;
    EvCout ("Streaming stopped." ++ endl);
    EvCloseHandle 100%N;
    EvCloseHandle 104%N],
   Ret 0%Z).
Proof. reflexivity. Qed.

(* ===================================================================== *)
(** ** More on reading the probe output *)
(* ===================================================================== *)

(** One turn of the loop of [exec]. *)
Lemma exec_loop_step (heap : option nat) (pipe result buffer rest : string) :
  fgets 128 pipe = Some (buffer, rest) ->
  exec_loop heap pipe result =
  match string_append heap result buffer with
  | inl e => inl e
  | inr result' => exec_loop heap rest result'
  end.
Proof.
  funelim (exec_loop heap pipe result); intros Hf.
  - congruence.
  - rewrite Hread in Hf. injection Hf as <- <-. now rewrite Heq.
  - rewrite Hread in Hf. injection Hf as <- <-. now rewrite Heq.
Qed.

Lemma length_c_str (p : string) : String.length (c_str p) <= String.length p.
Proof.
  induction p as [|c p IH]; simpl; [lia|].
  destruct (Ascii.eqb c NUL); simpl; lia.
Qed.

(** What the loop keeps true of [result]. *)
Lemma exec_loop_invariant (heap : option nat) (pipe result output : string) :
  c_str result = result ->
  exec_loop heap pipe result = inr output ->
  c_str output = output
  /\ String.length output <= String.length result + String.length pipe.
Proof.
  funelim (exec_loop heap pipe result); intros Hres Hout.
  - injection Hout as <-. split; [exact Hres | lia].
  - discriminate.
  - pose proof (fgets_split _ _ Hread) as Hsplit.
    assert (Hgrown : result' = result0 ++ c_str buffer).
    { unfold string_append in Heq. destruct heap as [limit|].
      - destruct (Nat.ltb limit _); [discriminate | congruence].
      - congruence. }
    match goal with IH : forall o, _ -> _ -> _ /\ _ |- _ =>
      destruct (IH output) as [Hnul Hlen]; [ | exact Hout | ] end.
    + rewrite Hgrown, c_str_append by exact Hres.
      now rewrite c_str_idempotent.
    + split; [exact Hnul|].
      pose proof (length_c_str buffer).
      rewrite Hgrown, length_append in Hlen.
      rewrite Hsplit, length_append. lia.
Qed.

Lemma fgets_chars_line (line rest : string) (room : nat) :
  no_newline line = true ->
  String.length line < room ->
  fgets_chars room (line ++ String LF rest) = (line ++ nl, rest).
Proof.
  revert room; induction line as [|c line IH]; intros room Hnl Hlen.
  - destruct room as [|room]; [simpl in Hlen; lia|].
    reflexivity.
  - destruct room as [|room]; [simpl in Hlen; lia|].
    simpl in Hnl. apply andb_true_iff in Hnl as [Hc Hnl].
    apply negb_true_iff in Hc. simpl. rewrite Hc.
    rewrite IH by (simpl in Hlen; auto; lia). reflexivity.
Qed.

(** A line that fits the buffer is read by one [fgets], newline included. *)
Lemma fgets_line (line rest : string) :
  no_newline line = true ->
  String.length line < 127 ->
  fgets 128 (line ++ String LF rest) = Some (line ++ nl, rest).
Proof.
  intros Hnl Hlen. unfold fgets.
  destruct (line ++ String LF rest) eqn:E; [destruct line; discriminate|].
  rewrite <- E. change (128 - 1) with 127.
  now rewrite fgets_chars_line.
Qed.

Lemma no_newline_append (a b : string) :
  no_newline (a ++ b) = no_newline a && no_newline b.
Proof.
  induction a as [|c a IH]; simpl; [reflexivity|].
  now rewrite IH, andb_assoc.
Qed.

(** X1. The encoder name is found wherever it stands in the subprocess
    output, also in a line longer than the 128-byte buffer and across the
    boundary between two reads: when the output is NUL-free text and
    memory suffices, the probe opens the pipe, closes it, reports the
    encoder on [std::cout] and returns true. *)
Theorem encoder_name_found_wherever_it_stands
    (os : OS) (pipe : FILE) (pre post : string) :
  popen_pipe os probe_command = Some pipe ->
  heap_limit os = None ->
  unread pipe = pre ++ "h264_nvenc" ++ post ->
  c_str (unread pipe) = unread pipe ->
  checkNvencAvailable os =
  ([EvCout ("Checking for NVENC availability..." ++ endl);
    EvPopen probe_command "r" (Some (fileno pipe));
    EvPclose (fileno pipe);
    EvCout ("NVENC encoder found." ++ endl)],
   Ret true).
Proof.
  intros Hp Hh Hocc Htext.
  rewrite probe_cases, exec_cases.
  change (c_str probe_command) with probe_command. rewrite Hp. cbv zeta.
  rewrite (exec_loop_text _ Hh Htext). simpl append at 1.
  pose proof (find_occurs "h264_nvenc" pre post) as Hfind.
  rewrite <- Hocc in Hfind.
  destruct (find (unread pipe) "h264_nvenc"); [reflexivity | contradiction].
Qed.

Lemma encoder_name_found_wherever_it_stands_witness :
  checkNvencAvailable os_long_line =
  ([EvCout ("Checking for NVENC availability..." ++ endl);
    EvPopen probe_command "r" (Some 3%N);
    EvPclose 3%N;
    EvCout ("NVENC encoder found." ++ endl)],
   Ret true).
Proof.
  apply (@encoder_name_found_wherever_it_stands
           os_long_line {| fileno := 3%N; unread := long_listing |}
           (substring 0 122 long_listing) nl);
    reflexivity.
Defined.

(** X2. A NUL in the subprocess output hides the rest of its line: of a
    line [a NUL b LF] that fits the buffer, [exec] keeps [a] alone, losing
    [b] and the line feed, and goes on with the next line. *)
Theorem nul_hides_rest_of_line (a b rest result : string) :
  c_str a = a ->
  no_newline a = true ->
  no_newline b = true ->
  String.length a + String.length b < 126 ->
  exec_loop None (a ++ String NUL b ++ String LF rest) result
  = exec_loop None rest (result ++ a).
Proof.
  intros Ha Hna Hnb Hlen.
  assert (Hread : fgets 128 (a ++ String NUL b ++ String LF rest)
                  = Some ((a ++ String NUL b) ++ nl, rest)).
  { change (String NUL b ++ String LF rest) with (String NUL (b ++ String LF rest)).
    change (String NUL (b ++ String LF rest))
      with (String NUL b ++ String LF rest).
    rewrite <- append_assoc. apply fgets_line.
    - rewrite no_newline_append, Hna. simpl. exact Hnb.
    - rewrite length_append. simpl. lia. }
  rewrite (@exec_loop_step None _ result _ _ Hread). unfold string_append.
  rewrite !append_assoc, c_str_append by exact Ha. simpl c_str.
  now rewrite append_nil_r.
Qed.

Lemma nul_hides_rest_of_line_witness :
  exec_loop None ("codecs:" ++ String NUL " h264_nvenc" ++ String LF "done") ""
  = exec_loop None "done" ("" ++ "codecs:").
Proof.
  apply (@nul_hides_rest_of_line "codecs:" " h264_nvenc" "done" "");
    try reflexivity.
  simpl. lia.
Defined.

(** X3. Whatever the subprocess writes, the text [exec] returns is free
    of NUL characters and no longer than what was written. *)
Theorem captured_text_is_nul_free_and_bounded
    (os : OS) (cmd : string) (pipe : FILE) (output : string) :
  popen_pipe os (c_str cmd) = Some pipe ->
  result (exec os cmd) = Ret output ->
  c_str output = output
  /\ String.length output <= String.length (unread pipe).
Proof.
  intros Hp. rewrite exec_cases, Hp, result_pair.
  destruct (exec_loop (heap_limit os) (unread pipe) "") as [e|out] eqn:E;
    [discriminate|].
  intros [= <-]. apply (@exec_loop_invariant _ _ "" _ eq_refl E).
Qed.

Lemma captured_text_is_nul_free_and_bounded_witness :
  c_str nvenc_listing = nvenc_listing
  /\ String.length nvenc_listing <= String.length nvenc_listing.
Proof.
  apply (@captured_text_is_nul_free_and_bounded
           (os_streaming 0%N) probe_command
           {| fileno := 3%N; unread := nvenc_listing |} nvenc_listing);
    reflexivity.
Defined.

(* ===================================================================== *)
(** ** More on runs of the program *)
(* ===================================================================== *)

Lemma exec_is_quiet (os : OS) (cmd : string) :
  diagnostics (events (exec os cmd)) = [].
Proof.
  rewrite exec_cases. destruct (popen_pipe os (c_str cmd)); reflexivity.
Qed.

Lemma exec_launches_nothing (os : OS) (cmd : string) :
  launches (events (exec os cmd)) = [].
Proof.
  rewrite exec_cases. destruct (popen_pipe os (c_str cmd)); reflexivity.
Qed.

(** A probe that answers false has written two lines to [std::cerr]. *)
Lemma probe_false_two_lines (os : OS) :
  result (checkNvencAvailable os) = Ret false ->
  List.length (diagnostics (events (checkNvencAvailable os))) = 2.
Proof.
  probe_paths os; (discriminate || reflexivity).
Qed.

(** X4. A host given on the command line is used as it stands, the empty
    string included, never replaced by the default: with the encoder
    present, the run opens by announcing that host and hands CreateProcessA
    exactly one command line, addressed to [udp://<host>:5555]. *)
Theorem given_host_is_launched
    (os : OS) (argv0 host : string) (rest : list string) :
  c_str host = host ->
  result (checkNvencAvailable os) = Ret true ->
  hd_error (events (main os (argv0 :: host :: rest)))
  = Some (EvCout ("Using target IP from command line: " ++ host ++ endl))
  /\ launches (events (main os (argv0 :: host :: rest)))
     = ["ffmpeg -hide_banner -f gdigrab -framerate 60 -i desktop -c:v h264_nvenc -preset p1 -tune ll -qp 0 -rc constqp -f mpegts udp://"
        ++ host ++ ":5555"].
Proof.
  intros Hhost Hprobe.
  rewrite main_cases, (run_split _ Hprobe). cbv zeta.
  change (resolved_target (argv0 :: host :: rest)) with (c_str host).
  change (Nat.ltb 1 (List.length (argv0 :: host :: rest))) with true.
  cbv iota. rewrite Hhost, <- ffmpegCmd_shape.
  split.
  - destruct (create_process os _) as [code|pi];
      [|destruct (child_exit os (hProcess pi))]; reflexivity.
  - destruct (create_process os _) as [code|pi];
      [|destruct (child_exit os (hProcess pi))];
      rewrite events_pair, launches_app; cbn [launches app];
      rewrite probe_launches_nothing; reflexivity.
Qed.

Lemma given_host_is_launched_witness :
  hd_error (events (main (os_streaming 0%N) ["sender"; ""; "extra"]))
  = Some (EvCout ("Using target IP from command line: " ++ "" ++ endl))
  /\ launches (events (main (os_streaming 0%N) ["sender"; ""; "extra"]))
     = ["ffmpeg -hide_banner -f gdigrab -framerate 60 -i desktop -c:v h264_nvenc -preset p1 -tune ll -qp 0 -rc constqp -f mpegts udp://"
        ++ "" ++ ":5555"].
Proof.
  apply (@given_host_is_launched (os_streaming 0%N) "sender" "" ["extra"]);
    reflexivity.
Defined.

(** X5. Any exception that leaves [exec], a failed allocation while the
    output is read as much as a failed [_popen], ends in the handler of
    the probe: the probe writes the exception's text and the PATH hint to
    [std::cerr] and returns false, and [main] returns 1 without calling
    CreateProcessA. *)
Theorem exec_exception_is_reported_as_false
    (os : OS) (argv : list string) (e : exn) :
  result (exec os probe_command) = Throw e ->
  result (checkNvencAvailable os) = Ret false
  /\ diagnostics (events (checkNvencAvailable os))
     = ["Error checking for NVENC: " ++ what os e ++ endl;
        "Is FFmpeg installed and in your system's PATH?" ++ endl]
  /\ result (main os argv) = Ret 1%Z
  /\ launches (events (main os argv)) = [].
Proof.
  intros Hexec.
  assert (Hprobe : result (checkNvencAvailable os) = Ret false
                   /\ diagnostics (events (checkNvencAvailable os))
                      = ["Error checking for NVENC: " ++ what os e ++ endl;
                         "Is FFmpeg installed and in your system's PATH?" ++ endl]).
  { rewrite probe_cases. cbv zeta.
    pose proof (exec_is_quiet os probe_command) as Hq.
    destruct (exec os probe_command) as [t r].
    rewrite result_pair in Hexec. rewrite events_pair in Hq. subst r.
    rewrite result_pair, events_pair, diagnostics_app.
    cbn [diagnostics app]. rewrite Hq. split; reflexivity. }
  destruct Hprobe as [Hfalse Hdiag].
  split; [exact Hfalse|]. split; [exact Hdiag|].
  rewrite main_cases, (run_split _ Hfalse). cbv zeta.
  rewrite events_pair, result_pair, launches_app.
  cbn [app launches]. rewrite probe_launches_nothing. auto.
Qed.

Lemma exec_exception_is_reported_as_false_witness :
  result (checkNvencAvailable os_low_memory) = Ret false
  /\ diagnostics (events (checkNvencAvailable os_low_memory))
     = ["Error checking for NVENC: " ++ what os_low_memory bad_alloc ++ endl;
        "Is FFmpeg installed and in your system's PATH?" ++ endl]
  /\ result (main os_low_memory ["sender"]) = Ret 1%Z
  /\ launches (events (main os_low_memory ["sender"])) = [].
Proof.
  apply (@exec_exception_is_reported_as_false os_low_memory ["sender"] bad_alloc).
  reflexivity.
Defined.


(** X7. A run that returns 1 has said why on [std::cerr], in two lines,
    and a run that returns 0 has written nothing there. *)
Theorem exit_1_iff_diagnostic (os : OS) (argv : list string) (code : Z) :
  result (main os argv) = Ret code ->
  (code = 1%Z /\ List.length (diagnostics (events (main os argv))) = 2)
  \/ (code = 0%Z /\ diagnostics (events (main os argv)) = []).
Proof.
  destruct (probe_returns os) as [found Hprobe].
  rewrite main_cases, (run_split _ Hprobe). cbv zeta.
  destruct found.
  - pose proof (probe_true_is_quiet _ Hprobe) as Hq.
    destruct (create_process os _) as [err|pi];
      [|destruct (child_exit os (hProcess pi))];
      rewrite events_pair, result_pair, diagnostics_app;
      cbn [diagnostics app]; rewrite Hq; intros [= <-]; auto.
  - pose proof (probe_false_two_lines _ Hprobe) as H2.
    rewrite events_pair, result_pair, diagnostics_app.
    cbn [diagnostics app]. rewrite app_nil_r. intros [= <-]; auto.
Qed.

Lemma exit_1_iff_diagnostic_witness :
  (1%Z = 1%Z
   /\ List.length (diagnostics (events (main os_no_ffmpeg_exe ["sender"]))) = 2)
  \/ (1%Z = 0%Z /\ diagnostics (events (main os_no_ffmpeg_exe ["sender"])) = []).
Proof.
  apply (@exit_1_iff_diagnostic os_no_ffmpeg_exe ["sender"] 1%Z).
  reflexivity.
Defined.

(** X8. What the operator is shown is what is run: whenever the probe
    finds the encoder, the command line announced on [std::cout] is,
    character for character, the one read by CreateProcessA from the
    NUL-terminated copy, in the very next step, and it is the only
    command line of the run. *)
Theorem echoed_command_is_the_launched_command (os : OS) (argv : list string) :
  result (checkNvencAvailable os) = Ret true ->
  exists before after cmd res,
    events (main os argv) =
    (before ++
     [EvCout (nl ++ "Executing FFmpeg command:" ++ nl ++ cmd ++ nl ++ endl);
      EvCreateProcess cmd res] ++ after)%list
    /\ launches (events (main os argv)) = [cmd]
    /\ c_str (cmd ++ String NUL EmptyString) = cmd.
Proof.
  intros Hprobe.
  pose proof (main_cases os argv) as Hmain.
  rewrite (run_split _ Hprobe) in Hmain. cbv zeta in Hmain.
  rewrite Hmain. clear Hmain.
  exists (EvCout (if Nat.ltb 1 (List.length argv)
                  then "Using target IP from command line: "
                       ++ resolved_target argv ++ endl
                  else "Using default target IP: "
                       ++ resolved_target argv ++ endl)
          :: events (checkNvencAvailable os)).
  destruct (create_process os (ffmpegCmd (resolved_target argv)))
    as [code|pi] eqn:Hc;
    [|destruct (child_exit os (hProcess pi))];
    eexists; exists (ffmpegCmd (resolved_target argv)); eexists;
    rewrite events_pair, launches_app; cbn [launches app];
    rewrite probe_launches_nothing;
    (split; [reflexivity|]); (split; [reflexivity|]);
    apply cmdVec_c_str, resolved_target_c_str.
Qed.

Lemma echoed_command_is_the_launched_command_witness :
  exists before after cmd res,
    events (main (os_streaming 0%N) ["sender"; "10.0.0.5"]) =
    (before ++
     [EvCout (nl ++ "Executing FFmpeg command:" ++ nl ++ cmd ++ nl ++ endl);
      EvCreateProcess cmd res] ++ after)%list
    /\ launches (events (main (os_streaming 0%N) ["sender"; "10.0.0.5"])) = [cmd]
    /\ c_str (cmd ++ String NUL EmptyString) = cmd.
Proof.
  apply (@echoed_command_is_the_launched_command
           (os_streaming 0%N) ["sender"; "10.0.0.5"]).
  reflexivity.
Defined.

Lemma held_checked_app (t1 t2 : trace) :
  held_checked (t1 ++ t2)%list = fold_left guarded_step t2 (held_checked t1).
Proof. unfold held_checked. apply fold_left_app. Qed.

Lemma held_checked_cout (text : string) (t : trace) :
  held_checked (EvCout text :: t) = held_checked t.
Proof. reflexivity. Qed.

Lemma probe_is_disciplined (os : OS) :
  held_checked (events (checkNvencAvailable os)) = Some [].
Proof.
  probe_paths os; unfold held_checked, events; simpl;
    rewrite ?N.eqb_refl; simpl; rewrite ?N.eqb_refl; reflexivity.
Qed.

Lemma guarded_fold_refused (t : trace) :
  fold_left guarded_step t None = None.
Proof. induction t as [|ev t IH]; simpl; [reflexivity | exact IH]. Qed.

(** Where the checked walk succeeds it computes [held_after]. *)
Lemma guarded_fold_agrees (t : trace) (held found : list resource) :
  fold_left guarded_step t (Some held) = Some found ->
  fold_left held_step t held = found.
Proof.
  revert held; induction t as [|ev t IH]; intros held; simpl.
  - congruence.
  - destruct ev; simpl; try apply IH.
    all: destruct (existsb _ held); [apply IH|].
    all: rewrite guarded_fold_refused; discriminate.
Qed.

(** X9. In every run, complete or stuck in the wait, the program closes a
    pipe or a handle only while it holds it and waits only on a handle it
    holds: nothing is closed twice, nothing is closed or awaited that was
    never opened. *)
Theorem handles_used_only_while_held (os : OS) (argv : list string) :
  held_checked (events (main os argv)) = Some (held_after (events (main os argv))).
Proof.
  assert (H : exists held, held_checked (events (main os argv)) = Some held).
  { rewrite main_cases. cbv zeta.
    pose proof (probe_is_disciplined os) as Hprobe.
    destruct (checkNvencAvailable os) as [t [[|]|e|]];
      rewrite events_pair in Hprobe.
    - destruct (create_process os _) as [err|pi];
        [|destruct (child_exit os (hProcess pi))];
        rewrite events_pair, held_checked_app, held_checked_cout, Hprobe;
        simpl; rewrite ?N.eqb_refl; simpl; rewrite ?N.eqb_refl; simpl;
        rewrite ?N.eqb_refl; eexists; reflexivity.
    - rewrite events_pair, held_checked_app, held_checked_cout, Hprobe.
      eexists; reflexivity.
    - rewrite events_pair, held_checked_cout, Hprobe. eexists; reflexivity.
    - rewrite events_pair, held_checked_cout, Hprobe. eexists; reflexivity. }
  destruct H as [held H]. rewrite H. f_equal. symmetry.
  exact (guarded_fold_agrees _ _ H).
Qed.

Lemma append_inv_head (a x y : string) : a ++ x = a ++ y -> x = y.
Proof. induction a as [|c a IH]; simpl; [auto | intros [= H]; auto]. Qed.

Lemma append_inv_tail (x y s : string) : x ++ s = y ++ s -> x = y.
Proof.
  revert y; induction x as [|c x IH]; intros [|d y] H; simpl in *.
  - reflexivity.
  - apply (f_equal String.length) in H. simpl in H.
    rewrite length_append in H. lia.
  - apply (f_equal String.length) in H. simpl in H.
    rewrite length_append in H. lia.
  - injection H as -> H. f_equal. apply IH, H.
Qed.

(** X10. The destination can be read back from the command line: two
    hosts that yield the same command line are the same host. *)
Theorem ffmpegCmd_injective (host1 host2 : string) :
  ffmpegCmd host1 = ffmpegCmd host2 -> host1 = host2.
Proof.
  rewrite !ffmpegCmd_shape. intros H.
  apply append_inv_head in H. apply append_inv_tail in H. exact H.
Qed.

Lemma ffmpegCmd_injective_witness : "10.0.0.5" = "10.0.0.5".
Proof.
  apply (@ffmpegCmd_injective "10.0.0.5" "10.0.0.5"). reflexivity.
Defined.

Lemma tokens_from_head (s cur : string) :
  cur <> EmptyString ->
  exists more rest, tokens_from cur s = (cur ++ more) :: rest.
Proof.
  revert cur; induction s as [|c s IH]; intros cur Hcur; simpl.
  - exists "", []. rewrite append_nil_r.
    destruct cur; [contradiction | reflexivity].
  - destruct (command_separator c).
    + exists "". eexists. rewrite append_nil_r.
      destruct cur; [contradiction | reflexivity].
    + destruct (IH (cur ++ String c "")) as (more & rest & E).
      { destruct cur; discriminate. }
      exists (String c more), rest. rewrite E, append_assoc. reflexivity.
Qed.

(** X11. No host, whatever blanks or metacharacters it holds, can change
    the arguments that precede the destination: the first twenty tokens
    of the command line are always the fixed ones, and the token after
    them begins with [udp://].  A host can only add tokens behind. *)
Theorem host_cannot_alter_fixed_arguments (host : string) :
  exists more rest,
    tokens (ffmpegCmd host) =
    (["ffmpeg"; "-hide_banner"; "-f"; "gdigrab"; "-framerate"; "60";
      "-i"; "desktop"; "-c:v"; "h264_nvenc"; "-preset"; "p1"; "-tune"; "ll";
      "-qp"; "0"; "-rc"; "constqp"; "-f"; "mpegts"]
     ++ ("udp://" ++ more)%string :: rest)%list.
Proof.
  rewrite ffmpegCmd_shape. unfold tokens. cbn.
  destruct (@tokens_from_head (host ++ ":5555") "udp://") as (more & rest & E);
    [discriminate|].
  exists more, rest. rewrite E. reflexivity.
Qed.



